(** * resultite.result: a shallow embedding of the [Result] API

    The Python module [resultite/result.py] defines an abstract class
    [Result] with two final subclasses [Ok] and [Err], the combinators
    [map], [map_err], [and_then] (blocking and [async]) and the two
    decorators [resultify] and [async_resultify].

    Python code is effectful: a callable may return, raise, or change the
    program state.  Blocking code is embedded in the monad
    [Py := eitherT exc (state world)] of ExtLib (an exception layer over a
    state layer, so that state changes made before a [raise] survive it, as
    in Python); [try ... except Exception] is [catch] guarded by an
    [isinstance] test.  Coroutines are embedded as resumptions over the same
    world (type [Co]), driven to completion by an event loop that lets other
    tasks change the world at every suspension point.

    Outside the model: callables that never return, user classes overriding
    [__eq__] with effects, tracebacks attached by [raise]. *)

From Stdlib Require Import String ZArith List Bool Arith.
From ExtLib Require Import Structures.Monad Structures.MonadState Structures.MonadExc.
From ExtLib Require Import Data.Monads.StateMonad Data.Monads.EitherMonad.
Import ListNotations.
Import MonadNotation.
Local Open Scope monad_scope.
Local Open Scope string_scope.

Set Implicit Arguments.

(* ===================================================================== *)
(** ** Python objects *)
(* ===================================================================== *)

(** The part of the built-in exception hierarchy the module can meet.
    [KeyboardInterrupt] and [SystemExit] derive from [BaseException] only,
    so [except Exception] lets them through. *)
Inductive exc_class : Type :=
| BaseException
| Exception
| TypeError
| ValueError
| RuntimeError
| NotImplementedError
| AttributeError
| KeyboardInterrupt
| SystemExit.

Definition exc_class_eqb (c d : exc_class) : bool :=
  match c, d with
  | BaseException, BaseException | Exception, Exception
  | TypeError, TypeError | ValueError, ValueError
  | RuntimeError, RuntimeError | NotImplementedError, NotImplementedError
  | AttributeError, AttributeError | KeyboardInterrupt, KeyboardInterrupt
  | SystemExit, SystemExit => true
  | _, _ => false
  end.

(** Method resolution order of each class, most specific first. *)
Definition mro (c : exc_class) : list exc_class :=
  match c with
  | BaseException => [BaseException]
  | Exception => [Exception; BaseException]
  | TypeError => [TypeError; Exception; BaseException]
  | ValueError => [ValueError; Exception; BaseException]
  | RuntimeError => [RuntimeError; Exception; BaseException]
  | NotImplementedError =>
      [NotImplementedError; RuntimeError; Exception; BaseException]
  | AttributeError => [AttributeError; Exception; BaseException]
  | KeyboardInterrupt => [KeyboardInterrupt; BaseException]
  | SystemExit => [SystemExit; BaseException]
  end.

Definition issubclass (c d : exc_class) : bool :=
  existsb (exc_class_eqb d) (mro c).

(** An exception instance.  Built-in exceptions compare by identity, so
    every instance carries the identity it was allocated with. *)
Record exc : Type := mkExc
  { exc_id : nat;
    exc_cls : exc_class;
    exc_msg : string }.

(** Python values.  [Ok] and [Err] are the instances of the two final
    subclasses of [Result], with their single slot. *)
Inductive value : Type :=
| PyNone
| PyInt (n : Z)
| PyStr (s : string)
| PyExc (x : exc)
| Ok (_value : value)
| Err (_error : value).

(** [isinstance(v, Exception)] *)
Definition isinstance_Exception (v : value) : bool :=
  match v with
  | PyExc x => issubclass (exc_cls x) Exception
  | _ => false
  end.

(** [isinstance(self, Ok)] and [isinstance(self, Err)] *)
Definition isinstance_Ok (v : value) : bool :=
  match v with Ok _ => true | _ => false end.

Definition isinstance_Err (v : value) : bool :=
  match v with Err _ => true | _ => false end.

(* ===================================================================== *)
(** ** Program state and the blocking monad *)
(* ===================================================================== *)

(** What a run of the program can observe and change: the allocator of
    object identities, the global variables of user code, and the log of
    the calls made to user-supplied callables. *)
Record world : Type := mkWorld
  { next_id : nat;
    globals : list (string * value);
    calls : list (string * list value) }.

Definition Py : Type -> Type := eitherT exc (state world).

(** Running a blocking computation: [inl e] is [raise e], [inr a] is
    [return a]. *)
Definition run {A} (c : Py A) (w : world) : (exc + A) * world :=
  runState (unEitherT c) w.

(** Instantiating an exception class allocates a new object. *)
Definition new_exc (cls : exc_class) (msg : string) : Py exc :=
  w <- get ;;
  put (mkWorld (S (next_id w)) (globals w) (calls w)) ;;
  ret (mkExc (next_id w) cls msg).

(** [try: body  except Exception as exc: handler(exc)] *)
Definition try_except_Exception {A} (body : Py A) (handler : exc -> Py A)
  : Py A :=
  catch body
    (fun x => if issubclass (exc_cls x) Exception then handler x else raise x).

(** A Python function object: introspection metadata and behaviour.
    The monad [M] is [Py] for a plain function, [Co] for an [async def]. *)
Record callable (M : Type -> Type) : Type := mkCallable
  { __name__ : string;
    __qualname__ : string;
    __doc__ : option string;
    __annotations__ : list (string * string);
    body : list value -> list (string * value) -> M value }.

Definition log_call (name : string) (args : list value) : Py unit :=
  w <- get ;;
  put (mkWorld (next_id w) (globals w) (calls w ++ [(name, args)])).

(** Calling [func] on positional and keyword arguments, instrumented: the
    call is logged first. *)
Definition call (func : callable Py) (args : list value)
    (kwargs : list (string * value)) : Py value :=
  log_call (__name__ func) args ;;
  body func args kwargs.

(* ===================================================================== *)
(** ** Payload equality, [__eq__] and [__ne__] *)
(* ===================================================================== *)

(** [Ok.__eq__]: [isinstance(other, Ok) and self._value == other._value],
    over the equality [eq] of the payloads. *)
Definition Ok___eq__ (eq : value -> value -> bool) (_value : value)
    (other : value) : bool :=
  match other with
  | Ok other_value => eq _value other_value
  | _ => false
  end.

(** [Err.__eq__]: [isinstance(other, Err) and self._error == other._error] *)
Definition Err___eq__ (eq : value -> value -> bool) (_error : value)
    (other : value) : bool :=
  match other with
  | Err other_error => eq _error other_error
  | _ => false
  end.

(** The operator [==] on the values of the model: integers and strings by
    content, exceptions by identity, results by their [__eq__]. *)
Fixpoint py_eq (a b : value) {struct a} : bool :=
  match a with
  | PyNone => match b with PyNone => true | _ => false end
  | PyInt n => match b with PyInt m => Z.eqb n m | _ => false end
  | PyStr s => match b with PyStr t => String.eqb s t | _ => false end
  | PyExc x => match b with PyExc y => Nat.eqb (exc_id x) (exc_id y) | _ => false end
  | Ok v => Ok___eq__ py_eq v b
  | Err e => Err___eq__ py_eq e b
  end.

(** [Result.__ne__]: [not self.__eq__(other)], where [self.__eq__] is
    [Ok.__eq__] or [Err.__eq__], the case of [py_eq] for a result. *)
Definition Result___ne__ (self other : value) : bool :=
  negb (py_eq self other).

(* ===================================================================== *)
(** ** class Result: query helpers *)
(* ===================================================================== *)

Definition is_ok (self : value) : bool := isinstance_Ok self.
Definition is_err (self : value) : bool := isinstance_Err self.

(* ===================================================================== *)
(** ** Constructors *)
(* ===================================================================== *)

(** [Ok.__init__] stores the value and cannot fail. *)
Definition Ok___init__ (v : value) : Py value := ret (Ok v).

(** [Err.__init__] rejects what is not an [Exception] instance. *)
Definition Err___init__ (error : value) : Py value :=
  if negb (isinstance_Exception error)
  then e <- new_exc TypeError "Err expects an Exception instance." ;; raise e
  else ret (Err error).

(* ===================================================================== *)
(** ** class Ok *)
(* ===================================================================== *)

(** The methods of [Ok] take the slot [_value] of [self]. *)
Definition Ok_unwrap (_value : value) : Py value := ret _value.

Definition Ok_unwrap_or (_value default : value) : Py value := ret _value.

Definition Ok_map (_value : value) (func : callable Py) : Py value :=
  try_except_Exception
    (r <- call func [_value] [] ;; Ok___init__ r)
    (fun exc => Err___init__ (PyExc exc)).

Definition Ok_map_err (_value : value) (func : callable Py) : Py value :=
  Ok___init__ _value.

Definition Ok_and_then (_value : value) (func : callable Py) : Py value :=
  try_except_Exception
    (call func [_value] [])
    (fun exc => Err___init__ (PyExc exc)).

(* ===================================================================== *)
(** ** class Err *)
(* ===================================================================== *)

(** [raise self._error]; raising what is not an exception is itself a
    [TypeError]. *)
Definition Err_unwrap (_error : value) : Py value :=
  match _error with
  | PyExc x => raise x
  | _ =>
      e <- new_exc TypeError "exceptions must derive from BaseException" ;;
      raise e
  end.

Definition Err_unwrap_or (_error default : value) : Py value := ret default.

Definition Err_map (_error : value) (func : callable Py) : Py value :=
  Err___init__ _error.

Definition Err_map_err (_error : value) (func : callable Py) : Py value :=
  try_except_Exception
    (r <- call func [_error] [] ;; Err___init__ r)
    (fun exc => Err___init__ (PyExc exc)).

Definition Err_and_then (_error : value) (func : callable Py) : Py value :=
  Err___init__ _error.

(** [resultify]: the wrapper calls [func] under [try] and copies the
    introspection attributes of [func]. *)
Definition resultify (func : callable Py) : callable Py :=
  let wrapper args kwargs :=
    try_except_Exception
      (r <- call func args kwargs ;; Ok___init__ r)
      (fun exc => Err___init__ (PyExc exc)) in
  {| __name__ := __name__ func;
     __qualname__ := __qualname__ func;
     __doc__ := __doc__ func;
     __annotations__ := __annotations__ func;
     body := wrapper |}.

(* ===================================================================== *)
(** ** Coroutines *)
(* ===================================================================== *)

(** One atomic slice of a coroutine ends in a result or at a suspension
    point, with the rest of the coroutine. *)
Inductive slice (A K : Type) : Type :=
| Finished (r : exc + A)
| Suspended (k : K).

Arguments Finished {A K} r.
Arguments Suspended {A K} k.

(** An awaitable: run a slice on the current world. *)
#[warnings="-register-all"]
Inductive Co (A : Type) : Type :=
| Resume (go : world -> slice A (Co A) * world).

Definition resume {A} (c : Co A) : world -> slice A (Co A) * world :=
  match c with Resume go => go end.

Fixpoint co_bind {A B} (c : Co A) (f : A -> Co B) {struct c} : Co B :=
  match c with
  | Resume go =>
      Resume (fun w =>
        match go w with
        | (Finished (inr a), w') => resume (f a) w'
        | (Finished (inl e), w') => (Finished (inl e), w')
        | (Suspended k, w') => (Suspended (co_bind k f), w')
        end)
  end.

Fixpoint co_catch {A} (c : Co A) (h : exc -> Co A) {struct c} : Co A :=
  match c with
  | Resume go =>
      Resume (fun w =>
        match go w with
        | (Finished (inr a), w') => (Finished (inr a), w')
        | (Finished (inl e), w') => resume (h e) w'
        | (Suspended k, w') => (Suspended (co_catch k h), w')
        end)
  end.

#[global] Instance Monad_Co : Monad Co :=
  { ret := fun _ a => Resume (fun w => (Finished (inr a), w));
    bind := fun _ _ c f => co_bind c f }.

#[global] Instance Exception_Co : MonadExc exc Co :=
  { raise := fun _ e => Resume (fun w => (Finished (inl e), w));
    catch := fun _ c h => co_catch c h }.

(** Blocking code inside a coroutine runs within the current slice. *)
Definition blocking {A} (c : Py A) : Co A :=
  Resume (fun w => let (r, w') := run c w in (Finished r, w')).

(** A bare suspension point, as [await asyncio.sleep(0)]. *)
Definition suspend : Co unit :=
  Resume (fun w => (Suspended (ret tt), w)).

(** The event loop drives a coroutine to completion.  At the [n]-th
    suspension the other tasks of the loop run and change the world by
    [others n].  The result comes with the final world and the number of
    suspensions seen so far. *)
Fixpoint drive {A} (others : nat -> world -> world) (n : nat) (c : Co A)
    (w : world) {struct c} : (exc + A) * world * nat :=
  match c with
  | Resume go =>
      match go w with
      | (Finished r, w') => (r, w', n)
      | (Suspended k, w') => drive others (S n) k (others n w')
      end
  end.

(** What the awaiting caller gets back. *)
Definition awaited {A} (others : nat -> world -> world) (n : nat)
    (c : Co A) (w : world) : exc + A :=
  fst (fst (drive others n c w)).

(** What the caller of blocking code gets back. *)
Definition returned {A} (c : Py A) (w : world) : exc + A :=
  fst (run c w).

(** [try: body  except Exception as exc: handler(exc)] in a coroutine. *)
Definition try_except_Exception_async {A} (body : Co A)
    (handler : exc -> Co A) : Co A :=
  catch body
    (fun x => if issubclass (exc_cls x) Exception then handler x else raise x).

(** [await func(...)], instrumented like [call]. *)
Definition await_call (func : callable Co) (args : list value)
    (kwargs : list (string * value)) : Co value :=
  blocking (log_call (__name__ func) args) ;;
  body func args kwargs.

Definition Ok_map_async (_value : value) (func : callable Co) : Co value :=
  try_except_Exception_async
    (r <- await_call func [_value] [] ;; blocking (Ok___init__ r))
    (fun exc => blocking (Err___init__ (PyExc exc))).

Definition Ok_and_then_async (_value : value) (func : callable Co)
  : Co value :=
  try_except_Exception_async
    (await_call func [_value] [])
    (fun exc => blocking (Err___init__ (PyExc exc))).

Definition Err_map_async (_error : value) (func : callable Co) : Co value :=
  blocking (Err___init__ _error).

Definition Err_and_then_async (_error : value) (func : callable Co)
  : Co value :=
  blocking (Err___init__ _error).

(** [async_resultify]: as [resultify], the wrapper awaiting [func]. *)
Definition async_resultify (func : callable Co) : callable Co :=
  let wrapper args kwargs :=
    try_except_Exception_async
      (r <- await_call func args kwargs ;; blocking (Ok___init__ r))
      (fun exc => blocking (Err___init__ (PyExc exc))) in
  {| __name__ := __name__ func;
     __qualname__ := __qualname__ func;
     __doc__ := __doc__ func;
     __annotations__ := __annotations__ func;
     body := wrapper |}.

(* ===================================================================== *)
(** ** Callables of the test suite *)
(* ===================================================================== *)

Definition empty_world : world := mkWorld 0 [] [].

Definition plain {M : Type -> Type} (name : string)
    (f : list value -> list (string * value) -> M value) : callable M :=
  {| __name__ := name; __qualname__ := name; __doc__ := None;
     __annotations__ := [("x", "int"); ("return", "int")]; body := f |}.

Definition bad_arguments (name : string) : Py value :=
  e <- new_exc TypeError (name ++ "() got unexpected arguments") ;; raise e.

(** [def inc(x): return x + 1] *)
Definition inc : callable Py :=
  plain "inc" (fun args _ =>
    match args with
    | [PyInt x] => ret (PyInt (x + 1))
    | _ => bad_arguments "inc"
    end).

(** [def fail(x): raise ValueError("boom")] *)
Definition fail : callable Py :=
  plain "fail" (fun _ _ => e <- new_exc ValueError "boom" ;; raise e).

(** [async def async_inc(x): await asyncio.sleep(0.01); return x + 1] *)
Definition async_inc : callable Co :=
  plain "async_inc" (fun args _ =>
    match args with
    | [PyInt x] => suspend ;; ret (PyInt (x + 1))
    | _ => blocking (bad_arguments "async_inc")
    end).

(** [async def async_fail(x): await asyncio.sleep(0.01);
    raise ValueError("boom-async")] *)
Definition async_fail : callable Co :=
  plain "async_fail" (fun _ _ =>
    suspend ;; e <- blocking (new_exc ValueError "boom-async") ;; raise e).

(** [def maybe_raise(x)]: raises [RuntimeError] on a positive argument. *)
Definition maybe_raise : callable Py :=
  {| __name__ := "maybe_raise"; __qualname__ := "maybe_raise";
     __doc__ := Some "May or may not raise.";
     __annotations__ := [("x", "int"); ("return", "int")];
     body := fun args _ =>
       match args with
       | [PyInt x] =>
           if (x >? 0)%Z
           then e <- new_exc RuntimeError "positive is forbidden" ;; raise e
           else ret (PyInt x)
       | _ => bad_arguments "maybe_raise"
       end |}.

(** The same under suspension. *)
Definition async_maybe_raise : callable Co :=
  {| __name__ := "async_maybe_raise"; __qualname__ := "async_maybe_raise";
     __doc__ := Some "May or may not raise, after a pause.";
     __annotations__ := [("x", "int"); ("return", "int")];
     body := fun args kwargs =>
       r <- blocking (body maybe_raise args kwargs) ;; suspend ;; ret r |}.

(** [lambda x: Ok(x * 10)] *)
Definition times_ten : callable Py :=
  plain "<lambda>" (fun args _ =>
    match args with
    | [PyInt x] => Ok___init__ (PyInt (x * 10))
    | _ => bad_arguments "<lambda>"
    end).

(** [lambda x: asyncio.sleep(0, result=Ok(x * 10))] *)
Definition async_times_ten : callable Co :=
  plain "<lambda>" (fun args _ =>
    match args with
    | [PyInt x] => r <- blocking (Ok___init__ (PyInt (x * 10))) ;; suspend ;; ret r
    | _ => blocking (bad_arguments "<lambda>")
    end).

(** [lambda e: RuntimeError(str(e))] *)
Definition to_runtime_error : callable Py :=
  plain "<lambda>" (fun args _ =>
    match args with
    | [PyExc x] => e <- new_exc RuntimeError (exc_msg x) ;; ret (PyExc e)
    | _ => bad_arguments "<lambda>"
    end).

(** [lambda e: str(e)]: a mapper that does not return an exception. *)
Definition to_message : callable Py :=
  plain "<lambda>" (fun args _ =>
    match args with
    | [PyExc x] => ret (PyStr (exc_msg x))
    | _ => bad_arguments "<lambda>"
    end).

(** A function with a side-effect counter: every call adds an entry to the
    global list before returning its argument. *)
Definition counting : callable Py :=
  plain "counting" (fun args _ =>
    w <- get ;;
    put (mkWorld (next_id w) (("counter", PyInt 1) :: globals w) (calls w)) ;;
    ret (hd PyNone args)).

Definition async_counting : callable Co :=
  plain "async_counting" (fun args kwargs =>
    suspend ;; blocking (body counting args kwargs)).

(** An other task of the event loop: it allocates an object and sets a
    global at every turn. *)
Definition busy_loop (n : nat) (w : world) : world :=
  mkWorld (S (next_id w)) (("turn", PyInt (Z.of_nat n)) :: globals w) (calls w).

Definition idle_loop (n : nat) (w : world) : world := w.

Definition bad : exc := mkExc 7 ValueError "bad".

(** [def interrupt(x): raise KeyboardInterrupt()] *)
Definition interrupt : callable Py :=
  plain "interrupt" (fun _ _ => e <- new_exc KeyboardInterrupt "" ;; raise e).

(* ===================================================================== *)
(** ** Method calls, chains and [__repr__] *)
(* ===================================================================== *)

(** Looking a method up on what is not a result fails. *)
Definition no_attribute (name : string) : Py value :=
  e <- new_exc AttributeError ("object has no attribute '" ++ name ++ "'") ;;
  raise e.

(** [self.unwrap()]: the method of the class of [self]. *)
Definition dot_unwrap (self : value) : Py value :=
  match self with
  | Ok v => Ok_unwrap v
  | Err e => Err_unwrap e
  | _ => no_attribute "unwrap"
  end.

(** [self.unwrap_or(default)] *)
Definition dot_unwrap_or (self default : value) : Py value :=
  match self with
  | Ok v => Ok_unwrap_or v default
  | Err e => Err_unwrap_or e default
  | _ => no_attribute "unwrap_or"
  end.

(** [self.map(func)] *)
Definition dot_map (self : value) (func : callable Py) : Py value :=
  match self with
  | Ok v => Ok_map v func
  | Err e => Err_map e func
  | _ => no_attribute "map"
  end.

(** [self.map_err(func)] *)
Definition dot_map_err (self : value) (func : callable Py) : Py value :=
  match self with
  | Ok v => Ok_map_err v func
  | Err e => Err_map_err e func
  | _ => no_attribute "map_err"
  end.

(** [self.and_then(func)] *)
Definition dot_and_then (self : value) (func : callable Py) : Py value :=
  match self with
  | Ok v => Ok_and_then v func
  | Err e => Err_and_then e func
  | _ => no_attribute "and_then"
  end.

(** One link of a method chain [r.map(f).and_then(g).map_err(h)...]. *)
Inductive link : Type :=
| dot_map_link (func : callable Py)
| dot_and_then_link (func : callable Py)
| dot_map_err_link (func : callable Py).

Definition follow (l : link) (self : value) : Py value :=
  match l with
  | dot_map_link func => dot_map self func
  | dot_and_then_link func => dot_and_then self func
  | dot_map_err_link func => dot_map_err self func
  end.

Fixpoint chain (links : list link) (self : value) : Py value :=
  match links with
  | [] => ret self
  | l :: rest => r <- follow l self ;; chain rest r
  end.

(** The links that continue the success branch. *)
Definition on_success (l : link) : bool :=
  match l with
  | dot_map_link _ | dot_and_then_link _ => true
  | dot_map_err_link _ => false
  end.

(** What the constructors allow: an [Ok], or an [Err] holding an
    [Exception] instance. *)
Definition well_formed (r : value) : bool :=
  match r with
  | Ok _ => true
  | Err e => isinstance_Exception e
  | _ => false
  end.

(** [Ok.__repr__] and [Err.__repr__], over the [repr] of the payload. *)
Definition Ok___repr__ (repr : value -> string) (_value : value) : string :=
  "Ok(" ++ repr _value ++ ")".

Definition Err___repr__ (repr : value -> string) (_error : value) : string :=
  "Err(" ++ repr _error ++ ")".

(** [lambda x: x] *)
Definition identity : callable Py :=
  plain "<lambda>" (fun args _ =>
    match args with
    | [x] => ret x
    | _ => bad_arguments "<lambda>"
    end).

(** The class [Ok] used as a function, as in [r.and_then(Ok)]. *)
Definition Ok_class : callable Py :=
  plain "Ok" (fun args _ =>
    match args with
    | [x] => Ok___init__ x
    | _ => bad_arguments "Ok"
    end).

(** [async def async_interrupt(x): await asyncio.sleep(0);
    raise KeyboardInterrupt()] *)
Definition async_interrupt : callable Co :=
  plain "async_interrupt" (fun _ _ =>
    suspend ;; e <- blocking (new_exc KeyboardInterrupt "") ;; raise e).

(* ===================================================================== *)
(** ** Reasoning principles *)
(* ===================================================================== *)

Section CoInduction.
Variable A : Type.
Variable P : Co A -> Prop.
Hypothesis step :
  forall go,
    (forall w k w', go w = (Suspended k, w') -> P k) -> P (Resume go).

(** Induction on a coroutine: the rests reachable through a suspension
    are smaller. *)
Lemma Co_suspension_ind : forall c : Co A, P c.
Proof.
  fix IH 1. intros [go]. apply step. intros w k w'.
  destruct (go w) as [[r | k0] w0]; intros E.
  - discriminate E.
  - injection E as Hk _. rewrite <- Hk. apply IH.
Qed.
End CoInduction.

(** *** Equations of [run] *)

Lemma run_ret A (a : A) w : run (ret a) w = (inr a, w).
Proof. reflexivity. Qed.

Lemma run_raise A (e : exc) w : run (raise e : Py A) w = (inl e, w).
Proof. reflexivity. Qed.

Lemma run_bind A B (c : Py A) (f : A -> Py B) w :
  run (bind c f) w =
  match run c w with
  | (inr a, w') => run (f a) w'
  | (inl e, w') => (inl e, w')
  end.
Proof.
  unfold run. simpl. destruct (runState (unEitherT c) w) as [[e | a] w']; reflexivity.
Qed.

Lemma run_catch A (c : Py A) (h : exc -> Py A) w :
  run (catch c h) w =
  match run c w with
  | (inr a, w') => (inr a, w')
  | (inl e, w') => run (h e) w'
  end.
Proof.
  unfold run. simpl. destruct (runState (unEitherT c) w) as [[e | a] w']; reflexivity.
Qed.

Lemma run_try_except_Exception A (c : Py A) (h : exc -> Py A) w :
  run (try_except_Exception c h) w =
  match run c w with
  | (inr a, w') => (inr a, w')
  | (inl e, w') =>
      if issubclass (exc_cls e) Exception then run (h e) w' else (inl e, w')
  end.
Proof.
  unfold try_except_Exception. rewrite run_catch.
  destruct (run c w) as [[e | a] w']; [| reflexivity].
  destruct (issubclass (exc_cls e) Exception); reflexivity.
Qed.

Lemma run_Ok_init v w : run (Ok___init__ v) w = (inr (Ok v), w).
Proof. reflexivity. Qed.

Lemma run_Err_init_Exception error w :
  isinstance_Exception error = true ->
  run (Err___init__ error) w = (inr (Err error), w).
Proof. intros H. unfold Err___init__. rewrite H. reflexivity. Qed.

Lemma run_Err_init_other error w :
  isinstance_Exception error = false ->
  run (Err___init__ error) w =
  (inl (mkExc (next_id w) TypeError "Err expects an Exception instance."),
   mkWorld (S (next_id w)) (globals w) (calls w)).
Proof. intros H. unfold Err___init__. rewrite H. reflexivity. Qed.

Lemma Err_init_returns error w r w' :
  run (Err___init__ error) w = (inr r, w') ->
  isinstance_Exception error = true /\ r = Err error /\ w' = w.
Proof.
  destruct (isinstance_Exception error) eqn:E.
  - rewrite (run_Err_init_Exception _ _ E). intros [= <- <-]. auto.
  - rewrite (run_Err_init_other _ _ E). discriminate.
Qed.

(** [==] is reflexive on the values of the model, so two results that are
    the same object are equal for [__eq__]. *)
Lemma py_eq_refl v : py_eq v v = true.
Proof.
  induction v; simpl; auto.
  - apply Z.eqb_refl.
  - apply String.eqb_refl.
  - apply Nat.eqb_refl.
Qed.

(** *** Equations of [drive] *)

Lemma drive_blocking A others n (c : Py A) w :
  drive others n (blocking c) w = (run c w, n).
Proof.
  simpl. destruct (run c w) as [r w']. reflexivity.
Qed.

Lemma drive_bind A B others (c : Co A) (f : A -> Co B) :
  forall n w,
    drive others n (bind c f) w =
    match drive others n c w with
    | (inr a, w', m) => drive others m (f a) w'
    | (inl e, w', m) => (inl e, w', m)
    end.
Proof.
  induction c as [go IH] using Co_suspension_ind. intros n w.
  simpl. specialize (IH w).
  destruct (go w) as [[[e | a] | k] w'].
  - reflexivity.
  - destruct (f a) as [go']. reflexivity.
  - simpl. apply (IH k w' eq_refl).
Qed.

Lemma drive_catch A others (c : Co A) (h : exc -> Co A) :
  forall n w,
    drive others n (catch c h) w =
    match drive others n c w with
    | (inr a, w', m) => (inr a, w', m)
    | (inl e, w', m) => drive others m (h e) w'
    end.
Proof.
  induction c as [go IH] using Co_suspension_ind. intros n w.
  simpl. specialize (IH w).
  destruct (go w) as [[[e | a] | k] w'].
  - destruct (h e) as [go']. reflexivity.
  - reflexivity.
  - simpl. apply (IH k w' eq_refl).
Qed.

Lemma drive_try_except_Exception_async A others (c : Co A) h n w :
  drive others n (try_except_Exception_async c h) w =
  match drive others n c w with
  | (inr a, w', m) => (inr a, w', m)
  | (inl e, w', m) =>
      if issubclass (exc_cls e) Exception
      then drive others m (h e) w' else (inl e, w', m)
  end.
Proof.
  unfold try_except_Exception_async. rewrite drive_catch.
  destruct (drive others n c w) as [[[e | a] w'] m]; [| reflexivity].
  destruct (issubclass (exc_cls e) Exception); reflexivity.
Qed.

(** What [except Exception as exc: return Err(exc)] returns. *)
Lemma run_Err_init_caught (e : exc) w :
  issubclass (exc_cls e) Exception = true ->
  run (Err___init__ (PyExc e)) w = (inr (Err (PyExc e)), w).
Proof. intros H. apply run_Err_init_Exception. exact H. Qed.

(** The body [try: return wrap(func(args))  except Exception as exc:
    return Err(exc)] shared by [Ok.map], [Err.map_err] and [resultify]. *)
Lemma run_capture (wrap : value -> Py value) (c : Py value) w :
  run (try_except_Exception (r <- c ;; wrap r)
         (fun exc => Err___init__ (PyExc exc))) w =
  match run c w with
  | (inr u, w') =>
      match run (wrap u) w' with
      | (inr r, w'') => (inr r, w'')
      | (inl e, w'') =>
          if issubclass (exc_cls e) Exception
          then (inr (Err (PyExc e)), w'') else (inl e, w'')
      end
  | (inl e, w') =>
      if issubclass (exc_cls e) Exception
      then (inr (Err (PyExc e)), w') else (inl e, w')
  end.
Proof.
  rewrite run_try_except_Exception, run_bind.
  destruct (run c w) as [[e | u] w'].
  - destruct (issubclass (exc_cls e) Exception) eqn:E; [| reflexivity].
    apply run_Err_init_caught, E.
  - destruct (run (wrap u) w') as [[e | r] w'']; [| reflexivity].
    destruct (issubclass (exc_cls e) Exception) eqn:E; [| reflexivity].
    apply run_Err_init_caught, E.
Qed.

Lemma run_Ok_map v func w :
  run (Ok_map v func) w =
  match run (call func [v] []) w with
  | (inr u, w') => (inr (Ok u), w')
  | (inl e, w') =>
      if issubclass (exc_cls e) Exception
      then (inr (Err (PyExc e)), w') else (inl e, w')
  end.
Proof.
  unfold Ok_map. rewrite run_capture.
  destruct (run (call func [v] []) w) as [[e | u] w']; reflexivity.
Qed.

Lemma run_Ok_and_then v func w :
  run (Ok_and_then v func) w =
  match run (call func [v] []) w with
  | (inr r, w') => (inr r, w')
  | (inl e, w') =>
      if issubclass (exc_cls e) Exception
      then (inr (Err (PyExc e)), w') else (inl e, w')
  end.
Proof.
  unfold Ok_and_then. rewrite run_try_except_Exception.
  destruct (run (call func [v] []) w) as [[e | r] w']; [| reflexivity].
  destruct (issubclass (exc_cls e) Exception) eqn:E; [| reflexivity].
  apply run_Err_init_caught, E.
Qed.

Lemma run_Err_map_err err func w :
  run (Err_map_err err func) w =
  match run (call func [err] []) w with
  | (inr u, w') =>
      if isinstance_Exception u then (inr (Err u), w')
      else (inr (Err (PyExc (mkExc (next_id w') TypeError
                                "Err expects an Exception instance."))),
            mkWorld (S (next_id w')) (globals w') (calls w'))
  | (inl e, w') =>
      if issubclass (exc_cls e) Exception
      then (inr (Err (PyExc e)), w') else (inl e, w')
  end.
Proof.
  unfold Err_map_err. rewrite run_capture.
  destruct (run (call func [err] []) w) as [[e | u] w']; [reflexivity |].
  destruct (isinstance_Exception u) eqn:E.
  - rewrite (run_Err_init_Exception _ _ E). reflexivity.
  - rewrite (run_Err_init_other _ _ E). reflexivity.
Qed.

Lemma drive_capture others n (c : Co value) w :
  drive others n
    (try_except_Exception_async (r <- c ;; blocking (Ok___init__ r))
       (fun exc => blocking (Err___init__ (PyExc exc)))) w =
  match drive others n c w with
  | (inr u, w', m) => (inr (Ok u), w', m)
  | (inl e, w', m) =>
      if issubclass (exc_cls e) Exception
      then (inr (Err (PyExc e)), w', m) else (inl e, w', m)
  end.
Proof.
  rewrite drive_try_except_Exception_async, drive_bind.
  destruct (drive others n c w) as [[[e | u] w'] m].
  - destruct (issubclass (exc_cls e) Exception) eqn:E; [| reflexivity].
    rewrite drive_blocking, (run_Err_init_caught _ _ E). reflexivity.
  - rewrite drive_blocking. reflexivity.
Qed.

Lemma drive_Ok_and_then_async others n v func w :
  drive others n (Ok_and_then_async v func) w =
  match drive others n (await_call func [v] []) w with
  | (inr r, w', m) => (inr r, w', m)
  | (inl e, w', m) =>
      if issubclass (exc_cls e) Exception
      then (inr (Err (PyExc e)), w', m) else (inl e, w', m)
  end.
Proof.
  unfold Ok_and_then_async. rewrite drive_try_except_Exception_async.
  destruct (drive others n (await_call func [v] []) w) as [[[e | r] w'] m];
    [| reflexivity].
  destruct (issubclass (exc_cls e) Exception) eqn:E; [| reflexivity].
  rewrite drive_blocking, (run_Err_init_caught _ _ E). reflexivity.
Qed.

Lemma run_resultify fn args kwargs w :
  run (body (resultify fn) args kwargs) w =
  match run (call fn args kwargs) w with
  | (inr u, w') => (inr (Ok u), w')
  | (inl e, w') =>
      if issubclass (exc_cls e) Exception
      then (inr (Err (PyExc e)), w') else (inl e, w')
  end.
Proof.
  unfold resultify. cbn [body]. rewrite run_capture.
  destruct (run (call fn args kwargs) w) as [[e | u] w']; reflexivity.
Qed.

Lemma drive_async_resultify others n fn args kwargs w :
  drive others n (body (async_resultify fn) args kwargs) w =
  match drive others n (await_call fn args kwargs) w with
  | (inr u, w', m) => (inr (Ok u), w', m)
  | (inl e, w', m) =>
      if issubclass (exc_cls e) Exception
      then (inr (Err (PyExc e)), w', m) else (inl e, w', m)
  end.
Proof.
  unfold async_resultify. cbn [body]. apply drive_capture.
Qed.

(** The capture boundary is [except Exception]: what derives from
    [BaseException] only passes through [map]. *)
Example Ok_map_lets_KeyboardInterrupt_through :
  run (Ok_map (PyInt 1) interrupt) empty_world =
    (inl (mkExc 0 KeyboardInterrupt ""),
     mkWorld 1 [] [("interrupt", [PyInt 1])]).
Proof. reflexivity. Qed.

(* ===================================================================== *)
(** ** The contract of [Ok] and [Err] *)
(* ===================================================================== *)

(** C1: [Ok(v).map(f)] is [Ok(f(v))] when [f(v)] returns, and [Err(e)],
    returned and not raised, when [f(v)] raises an [Exception] instance
    [e]. *)
Theorem Ok_map_captures v func w :
  (forall u w', run (call func [v] []) w = (inr u, w') ->
                run (Ok_map v func) w = (inr (Ok u), w')) /\
  (forall e w', run (call func [v] []) w = (inl e, w') ->
                issubclass (exc_cls e) Exception = true ->
                run (Ok_map v func) w = (inr (Err (PyExc e)), w')).
Proof.
  split; intros x w' H; rewrite run_Ok_map, H.
  - reflexivity.
  - intros ->. reflexivity.
Qed.

Lemma Ok_map_captures_witness :
  run (Ok_map (PyInt 1) inc) empty_world =
    (inr (Ok (PyInt 2)), mkWorld 0 [] [("inc", [PyInt 1])]) /\
  run (Ok_map (PyInt 1) fail) empty_world =
    (inr (Err (PyExc (mkExc 0 ValueError "boom"))),
     mkWorld 1 [] [("fail", [PyInt 1])]).
Proof.
  split.
  - apply (proj1 (Ok_map_captures (PyInt 1) inc empty_world)). reflexivity.
  - apply (proj2 (Ok_map_captures (PyInt 1) fail empty_world));
      reflexivity.
Defined.

(** C2: for every value [v], [Ok(v)] answers [is_ok] and not [is_err],
    [unwrap] and [unwrap_or(d)] return [v]; for every [Exception] instance
    [e], [Err(e)] is constructed, answers [is_err] and not [is_ok],
    [unwrap] raises [e] itself and [unwrap_or(d)] returns [d]. *)
Theorem queries_and_extraction w :
  (forall v,
      run (Ok___init__ v) w = (inr (Ok v), w) /\
      is_ok (Ok v) = true /\
      is_err (Ok v) = false /\
      run (Ok_unwrap v) w = (inr v, w) /\
      (forall d, run (Ok_unwrap_or v d) w = (inr v, w))) /\
  (forall e,
      isinstance_Exception e = true ->
      run (Err___init__ e) w = (inr (Err e), w) /\
      is_err (Err e) = true /\
      is_ok (Err e) = false /\
      (exists x, e = PyExc x /\ run (Err_unwrap e) w = (inl x, w)) /\
      (forall d, run (Err_unwrap_or e d) w = (inr d, w))).
Proof.
  split.
  - intros v. repeat split.
  - intros e He. repeat split.
    + apply run_Err_init_Exception, He.
    + destruct e; try discriminate He. exists x. split; reflexivity.
Qed.

Lemma queries_and_extraction_witness :
  run (Err___init__ (PyExc bad)) empty_world = (inr (Err (PyExc bad)), empty_world) /\
  run (Err_unwrap_or (PyExc bad) (PyInt 0)) empty_world = (inr (PyInt 0), empty_world).
Proof.
  destruct (proj2 (queries_and_extraction empty_world) (PyExc bad) eq_refl)
    as (Hinit & _ & _ & _ & Hor).
  split; [exact Hinit | exact (Hor (PyInt 0))].
Defined.

(** C3: on [Err(e)], [map], [and_then], [map_async] and [and_then_async]
    return [Err(e)] and leave the world as it was, whatever the function:
    the function is not called (no entry is added to the call log, no
    effect of the function is seen). *)
Theorem Err_propagates e (func : callable Py) (afunc : callable Co)
    others n w :
  isinstance_Exception e = true ->
  run (Err_map e func) w = (inr (Err e), w) /\
  run (Err_and_then e func) w = (inr (Err e), w) /\
  drive others n (Err_map_async e afunc) w = (inr (Err e), w, n) /\
  drive others n (Err_and_then_async e afunc) w = (inr (Err e), w, n).
Proof.
  intros He.
  unfold Err_map, Err_and_then, Err_map_async, Err_and_then_async.
  rewrite !drive_blocking, (run_Err_init_Exception _ _ He).
  repeat split.
Qed.

Lemma Err_propagates_witness :
  run (Err_map (PyExc bad) counting) empty_world =
    (inr (Err (PyExc bad)), empty_world) /\
  drive busy_loop 0 (Err_map_async (PyExc bad) async_counting) empty_world =
    (inr (Err (PyExc bad)), empty_world, 0).
Proof.
  destruct (Err_propagates (PyExc bad) counting async_counting busy_loop 0
              empty_world eq_refl) as (Hmap & _ & Hasync & _).
  split; [exact Hmap | exact Hasync].
Defined.

(** C4: [Ok(v).map_err(f)] is [Ok(v)] and [f] is not called (the world is
    unchanged); [Err(e).map_err(f)] is [Err(f(e))], the object [r] that the
    constructor builds from what [f(e)] returned, and [Err(e2)] when [f(e)]
    raises the [Exception] instance [e2]. *)
Theorem map_err_maps_the_error func w :
  (forall v, run (Ok_map_err v func) w = (inr (Ok v), w)) /\
  (forall e u w' r w'',
      run (call func [e] []) w = (inr u, w') ->
      run (Err___init__ u) w' = (inr r, w'') ->
      run (Err_map_err e func) w = (inr r, w'')) /\
  (forall e e2 w',
      run (call func [e] []) w = (inl e2, w') ->
      issubclass (exc_cls e2) Exception = true ->
      run (Err_map_err e func) w = (inr (Err (PyExc e2)), w')).
Proof.
  split; [| split].
  - reflexivity.
  - intros e u w' r w'' H Hr.
    destruct (Err_init_returns _ _ Hr) as (Hu & -> & ->).
    rewrite run_Err_map_err, H, Hu. reflexivity.
  - intros e e2 w' H He2. rewrite run_Err_map_err, H, He2. reflexivity.
Qed.

Lemma map_err_maps_the_error_witness :
  run (Err_map_err (PyExc bad) to_runtime_error) empty_world =
    (inr (Err (PyExc (mkExc 0 RuntimeError "bad"))),
     mkWorld 1 [] [("<lambda>", [PyExc bad])]) /\
  run (Err_map_err (PyExc bad) fail) empty_world =
    (inr (Err (PyExc (mkExc 0 ValueError "boom"))),
     mkWorld 1 [] [("fail", [PyExc bad])]).
Proof.
  split.
  - apply (proj1 (proj2 (map_err_maps_the_error to_runtime_error empty_world))
             (PyExc bad) (PyExc (mkExc 0 RuntimeError "bad"))
             (mkWorld 1 [] [("<lambda>", [PyExc bad])]));
      reflexivity.
  - apply (proj2 (proj2 (map_err_maps_the_error fail empty_world)));
      reflexivity.
Defined.

(** C5: [Ok(v).and_then(f)] is what [f(v)] returns, as it is; when [f(v)]
    raises an [Exception] instance the call returns it inside an [Err]. *)
Theorem Ok_and_then_chains v func w :
  (forall r w', run (call func [v] []) w = (inr r, w') ->
                run (Ok_and_then v func) w = (inr r, w')) /\
  (forall e w', run (call func [v] []) w = (inl e, w') ->
                issubclass (exc_cls e) Exception = true ->
                run (Ok_and_then v func) w = (inr (Err (PyExc e)), w')).
Proof.
  split; intros x w' H; rewrite run_Ok_and_then, H.
  - reflexivity.
  - intros ->. reflexivity.
Qed.

Lemma Ok_and_then_chains_witness :
  run (Ok_and_then (PyInt 2) times_ten) empty_world =
    (inr (Ok (PyInt 20)), mkWorld 0 [] [("<lambda>", [PyInt 2])]) /\
  run (Ok_and_then (PyInt 2) fail) empty_world =
    (inr (Err (PyExc (mkExc 0 ValueError "boom"))),
     mkWorld 1 [] [("fail", [PyInt 2])]).
Proof.
  split.
  - apply (proj1 (Ok_and_then_chains (PyInt 2) times_ten empty_world)).
    reflexivity.
  - apply (proj2 (Ok_and_then_chains (PyInt 2) fail empty_world));
      reflexivity.
Defined.

(** C6: [Err(x)] raises a [TypeError] at once when [x] is not an
    [Exception] instance, and otherwise builds the object holding [x]. *)
Theorem Err_constructor_checks_payload x w :
  (isinstance_Exception x = false ->
   exists e w', run (Err___init__ x) w = (inl e, w') /\ exc_cls e = TypeError) /\
  (isinstance_Exception x = true ->
   run (Err___init__ x) w = (inr (Err x), w)).
Proof.
  split; intros H.
  - rewrite (run_Err_init_other _ _ H). eexists _, _. split; reflexivity.
  - apply run_Err_init_Exception, H.
Qed.

Lemma Err_constructor_checks_payload_witness :
  (exists e w', run (Err___init__ (PyStr "oops")) empty_world = (inl e, w') /\
                exc_cls e = TypeError) /\
  run (Err___init__ (PyExc bad)) empty_world = (inr (Err (PyExc bad)), empty_world).
Proof.
  split.
  - apply (proj1 (Err_constructor_checks_payload (PyStr "oops") empty_world)).
    reflexivity.
  - apply (proj2 (Err_constructor_checks_payload (PyExc bad) empty_world)).
    reflexivity.
Defined.

(** C10: when the mapper of [Err(e).map_err(f)] returns something that is
    not an [Exception] instance, the [TypeError] of the constructor is
    caught by the same [try]: the call returns an [Err] holding that
    [TypeError] and raises nothing. *)
Theorem Err_map_err_captures_TypeError e func w u w' :
  run (call func [e] []) w = (inr u, w') ->
  isinstance_Exception u = false ->
  exists t w'',
    run (Err_map_err e func) w = (inr (Err (PyExc t)), w'') /\
    exc_cls t = TypeError /\
    run (Err___init__ u) w' = (inl t, w'').
Proof.
  intros H Hu. rewrite run_Err_map_err, H, Hu, (run_Err_init_other _ _ Hu).
  eexists _, _. repeat split.
Qed.

Lemma Err_map_err_captures_TypeError_witness :
  exists t w'',
    run (Err_map_err (PyExc bad) to_message) empty_world =
      (inr (Err (PyExc t)), w'') /\
    exc_cls t = TypeError /\
    run (Err___init__ (PyStr "bad")) (mkWorld 0 [] [("<lambda>", [PyExc bad])]) =
      (inl t, w'').
Proof.
  apply (Err_map_err_captures_TypeError (PyExc bad) to_message empty_world);
    reflexivity.
Defined.

(** C7: a result equals another value exactly when both are [Ok] with
    equal values or both are [Err] with equal errors; an [Ok] and an [Err]
    are never equal, either way round; [!=] is the negation of [==]. *)
Theorem equality_by_variant_and_payload a b :
  is_ok a || is_err a = true ->
  (py_eq a b = true <->
   (exists v v', a = Ok v /\ b = Ok v' /\ py_eq v v' = true) \/
   (exists e e', a = Err e /\ b = Err e' /\ py_eq e e' = true)) /\
  (is_ok a = true -> is_err b = true -> py_eq a b = false /\ py_eq b a = false) /\
  Result___ne__ a b = negb (py_eq a b).
Proof.
  intros Ha. split; [| split].
  - destruct a; try discriminate Ha; simpl.
    + split.
      * destruct b; try discriminate. intros H. left. eauto.
      * intros [(v & v' & Hv & -> & H) | (e & e' & He & _)]; [| discriminate He].
        injection Hv as ->. exact H.
    + split.
      * destruct b; try discriminate. intros H. right. eauto.
      * intros [(v & v' & Hv & _) | (e & e' & He & -> & H)]; [discriminate Hv |].
        injection He as ->. exact H.
  - intros Hok Herr. destruct a; try discriminate Hok.
    destruct b; try discriminate Herr. split; reflexivity.
  - reflexivity.
Qed.

Lemma equality_by_variant_and_payload_witness :
  py_eq (Ok (PyInt 1)) (Ok (PyInt 1)) = true /\
  Result___ne__ (Ok (PyInt 1)) (Err (PyExc bad)) = true.
Proof.
  split.
  - apply (proj1 (equality_by_variant_and_payload (Ok (PyInt 1)) (Ok (PyInt 1))
                    eq_refl)).
    left. exists (PyInt 1), (PyInt 1). repeat split.
  - rewrite (proj2 (proj2 (equality_by_variant_and_payload (Ok (PyInt 1))
                              (Err (PyExc bad)) eq_refl))).
    reflexivity.
Defined.

(** C8: when the coroutine function, awaited, gives the caller what the
    blocking function gives (the same value returned or the same exception
    raised), [map_async] gives what [map] gives and [and_then_async] what
    [and_then] gives, on [Ok(v)] and on [Err(e)], whatever the other tasks
    of the event loop do at the suspension points. *)
Theorem async_agrees_with_blocking others n func afunc w :
  (forall v,
      awaited others n (await_call afunc [v] []) w =
        returned (call func [v] []) w ->
      awaited others n (Ok_map_async v afunc) w = returned (Ok_map v func) w /\
      awaited others n (Ok_and_then_async v afunc) w =
        returned (Ok_and_then v func) w) /\
  (forall e,
      awaited others n (Err_map_async e afunc) w = returned (Err_map e func) w /\
      awaited others n (Err_and_then_async e afunc) w =
        returned (Err_and_then e func) w).
Proof.
  unfold awaited, returned. split.
  - intros v H. unfold Ok_map_async.
    rewrite drive_capture, drive_Ok_and_then_async, run_Ok_map, run_Ok_and_then.
    destruct (drive others n (await_call afunc [v] []) w) as [[r w1] m].
    destruct (run (call func [v] []) w) as [r' w2].
    simpl in H. subst r'.
    destruct r as [e | u]; [destruct (issubclass (exc_cls e) Exception) |];
      split; reflexivity.
  - intros e.
    unfold Err_map_async, Err_and_then_async, Err_map, Err_and_then.
    rewrite drive_blocking. split; reflexivity.
Qed.

Lemma async_agrees_with_blocking_witness :
  awaited busy_loop 0 (Ok_map_async (PyInt 3) async_inc) empty_world =
    returned (Ok_map (PyInt 3) inc) empty_world /\
  awaited busy_loop 0 (Ok_and_then_async (PyInt 3) async_inc) empty_world =
    returned (Ok_and_then (PyInt 3) inc) empty_world.
Proof.
  apply (proj1 (async_agrees_with_blocking busy_loop 0 inc async_inc
                  empty_world) (PyInt 3)).
  reflexivity.
Defined.

(** C9: the wrapper made by [resultify] returns [Ok] of what the function
    returns and [Err] of the [Exception] instance it raises; the wrapper
    made by [async_resultify] does the same with the awaited function; both
    wrappers carry the name, qualified name, docstring and annotations of
    the function. *)
Theorem resultify_captures fn afn args kwargs others n w :
  ((forall u w', run (call fn args kwargs) w = (inr u, w') ->
                 run (body (resultify fn) args kwargs) w = (inr (Ok u), w')) /\
   (forall e w', run (call fn args kwargs) w = (inl e, w') ->
                 issubclass (exc_cls e) Exception = true ->
                 run (body (resultify fn) args kwargs) w =
                   (inr (Err (PyExc e)), w'))) /\
  ((forall u w' m,
       drive others n (await_call afn args kwargs) w = (inr u, w', m) ->
       drive others n (body (async_resultify afn) args kwargs) w =
         (inr (Ok u), w', m)) /\
   (forall e w' m,
       drive others n (await_call afn args kwargs) w = (inl e, w', m) ->
       issubclass (exc_cls e) Exception = true ->
       drive others n (body (async_resultify afn) args kwargs) w =
         (inr (Err (PyExc e)), w', m))) /\
  (__name__ (resultify fn) = __name__ fn /\
   __qualname__ (resultify fn) = __qualname__ fn /\
   __doc__ (resultify fn) = __doc__ fn /\
   __annotations__ (resultify fn) = __annotations__ fn) /\
  (__name__ (async_resultify afn) = __name__ afn /\
   __qualname__ (async_resultify afn) = __qualname__ afn /\
   __doc__ (async_resultify afn) = __doc__ afn /\
   __annotations__ (async_resultify afn) = __annotations__ afn).
Proof.
  split; [| split; [| split]].
  - split; intros x w' H; rewrite run_resultify, H.
    + reflexivity.
    + intros ->. reflexivity.
  - split; intros x w' m H; rewrite drive_async_resultify, H.
    + reflexivity.
    + intros ->. reflexivity.
  - repeat split.
  - repeat split.
Qed.

Lemma resultify_captures_witness :
  run (body (resultify maybe_raise) [PyInt 0] []) empty_world =
    (inr (Ok (PyInt 0)), mkWorld 0 [] [("maybe_raise", [PyInt 0])]) /\
  run (body (resultify maybe_raise) [PyInt 1] []) empty_world =
    (inr (Err (PyExc (mkExc 0 RuntimeError "positive is forbidden"))),
     mkWorld 1 [] [("maybe_raise", [PyInt 1])]) /\
  drive busy_loop 0 (body (async_resultify async_maybe_raise) [PyInt 0] [])
    empty_world =
    (inr (Ok (PyInt 0)),
     mkWorld 1 [("turn", PyInt 0)] [("async_maybe_raise", [PyInt 0])], 1).
Proof.
  split; [| split].
  - apply (proj1 (proj1 (resultify_captures maybe_raise async_maybe_raise
                           [PyInt 0] [] busy_loop 0 empty_world))).
    reflexivity.
  - apply (proj2 (proj1 (resultify_captures maybe_raise async_maybe_raise
                           [PyInt 1] [] busy_loop 0 empty_world)));
      reflexivity.
  - apply (proj1 (proj1 (proj2 (resultify_captures maybe_raise
                                  async_maybe_raise [PyInt 0] [] busy_loop 0
                                  empty_world)))).
    reflexivity.
Defined.

(* ===================================================================== *)
(** ** Further properties of the combinators *)
(* ===================================================================== *)

(** X1: a blocking combinator that takes a function raises only what the
    function itself raised, and only when that is not an [Exception]
    instance: nothing deriving from [Exception] leaves [Ok.map],
    [Ok.and_then], [Err.map_err] or the wrapper of [resultify]. *)
Theorem only_BaseException_escapes func w x w' :
  (forall v, run (Ok_map v func) w = (inl x, w') ->
             issubclass (exc_cls x) Exception = false /\
             run (call func [v] []) w = (inl x, w')) /\
  (forall v, run (Ok_and_then v func) w = (inl x, w') ->
             issubclass (exc_cls x) Exception = false /\
             run (call func [v] []) w = (inl x, w')) /\
  (forall e, run (Err_map_err e func) w = (inl x, w') ->
             issubclass (exc_cls x) Exception = false /\
             run (call func [e] []) w = (inl x, w')) /\
  (forall args kwargs,
      run (body (resultify func) args kwargs) w = (inl x, w') ->
      issubclass (exc_cls x) Exception = false /\
      run (call func args kwargs) w = (inl x, w')).
Proof.
  repeat split.
  all: revert H;
    rewrite ?run_Ok_map, ?run_Ok_and_then, ?run_Err_map_err, ?run_resultify.
  all: match goal with
       | |- context [run (call ?f ?a ?k) ?w0] =>
           destruct (run (call f a k) w0) as [[y | u] w1]
       end.
  all: try (destruct (issubclass (exc_cls y) Exception) eqn:E).
  all: try destruct (isinstance_Exception u).
  all: try discriminate.
  all: intros [= -> ->]; auto.
Qed.

Lemma only_BaseException_escapes_witness :
  issubclass KeyboardInterrupt Exception = false /\
  run (call interrupt [PyInt 1] []) empty_world =
    (inl (mkExc 0 KeyboardInterrupt ""),
     mkWorld 1 [] [("interrupt", [PyInt 1])]).
Proof.
  apply (proj1 (only_BaseException_escapes interrupt empty_world
                  (mkExc 0 KeyboardInterrupt "")
                  (mkWorld 1 [] [("interrupt", [PyInt 1])])) (PyInt 1)).
  reflexivity.
Defined.

(** X2: the same boundary under suspension: [Ok.map_async],
    [Ok.and_then_async] and the wrapper of [async_resultify] raise only
    what the awaited function raised, and only when it is not an
    [Exception] instance. *)
Theorem only_BaseException_escapes_async others n afunc w x w' m :
  (forall v, drive others n (Ok_map_async v afunc) w = (inl x, w', m) ->
             issubclass (exc_cls x) Exception = false /\
             drive others n (await_call afunc [v] []) w = (inl x, w', m)) /\
  (forall v, drive others n (Ok_and_then_async v afunc) w = (inl x, w', m) ->
             issubclass (exc_cls x) Exception = false /\
             drive others n (await_call afunc [v] []) w = (inl x, w', m)) /\
  (forall args kwargs,
      drive others n (body (async_resultify afunc) args kwargs) w =
        (inl x, w', m) ->
      issubclass (exc_cls x) Exception = false /\
      drive others n (await_call afunc args kwargs) w = (inl x, w', m)).
Proof.
  split; [| split].
  - intros v. unfold Ok_map_async. rewrite drive_capture.
    destruct (drive others n (await_call afunc [v] []) w) as [[[y | u] w1] m1];
      [| discriminate].
    destruct (issubclass (exc_cls y) Exception) eqn:E; [discriminate |].
    intros [= -> -> ->]. auto.
  - intros v. rewrite drive_Ok_and_then_async.
    destruct (drive others n (await_call afunc [v] []) w) as [[[y | u] w1] m1];
      [| discriminate].
    destruct (issubclass (exc_cls y) Exception) eqn:E; [discriminate |].
    intros [= -> -> ->]. auto.
  - intros args kwargs. rewrite drive_async_resultify.
    destruct (drive others n (await_call afunc args kwargs) w)
      as [[[y | u] w1] m1]; [| discriminate].
    destruct (issubclass (exc_cls y) Exception) eqn:E; [discriminate |].
    intros [= -> -> ->]. auto.
Qed.

Lemma only_BaseException_escapes_async_witness :
  issubclass KeyboardInterrupt Exception = false /\
  drive busy_loop 0 (await_call async_interrupt [PyInt 1] []) empty_world =
    (inl (mkExc 1 KeyboardInterrupt ""),
     mkWorld 2 [("turn", PyInt 0)] [("async_interrupt", [PyInt 1])], 1).
Proof.
  apply (proj1 (only_BaseException_escapes_async busy_loop 0 async_interrupt
                  empty_world (mkExc 1 KeyboardInterrupt "")
                  (mkWorld 2 [("turn", PyInt 0)]
                     [("async_interrupt", [PyInt 1])]) 1) (PyInt 1)).
  reflexivity.
Defined.

(** X3: every object the constructors and the wrapping combinators return
    is an [Ok] or an [Err] holding an [Exception] instance, whatever the
    function returns or raises and whatever the receiver held. *)
Theorem returned_results_are_well_formed func afunc others n w r w' m :
  (forall x, run (Ok___init__ x) w = (inr r, w') -> well_formed r = true) /\
  (forall x, run (Err___init__ x) w = (inr r, w') -> well_formed r = true) /\
  (forall v, run (Ok_map v func) w = (inr r, w') -> well_formed r = true) /\
  (forall v, run (Ok_map_err v func) w = (inr r, w') -> well_formed r = true) /\
  (forall e, run (Err_map e func) w = (inr r, w') -> well_formed r = true) /\
  (forall e, run (Err_map_err e func) w = (inr r, w') -> well_formed r = true) /\
  (forall e, run (Err_and_then e func) w = (inr r, w') -> well_formed r = true) /\
  (forall args kwargs,
      run (body (resultify func) args kwargs) w = (inr r, w') ->
      well_formed r = true) /\
  (forall v, drive others n (Ok_map_async v afunc) w = (inr r, w', m) ->
             well_formed r = true) /\
  (forall e, drive others n (Err_map_async e afunc) w = (inr r, w', m) ->
             well_formed r = true) /\
  (forall e, drive others n (Err_and_then_async e afunc) w = (inr r, w', m) ->
             well_formed r = true) /\
  (forall args kwargs,
      drive others n (body (async_resultify afunc) args kwargs) w =
        (inr r, w', m) ->
      well_formed r = true).
Proof.
  assert (Hinit : forall x, run (Err___init__ x) w = (inr r, w') ->
                            well_formed r = true).
  { intros x H. destruct (Err_init_returns _ _ H) as (Hx & -> & _). exact Hx. }
  assert (Hcapture : forall (y : exc + value) (w1 : world),
             match y with
             | inr u => (inr (Ok u), w1)
             | inl e => if issubclass (exc_cls e) Exception
                        then (inr (Err (PyExc e)), w1) else (inl e, w1)
             end = (inr r, w') -> well_formed r = true).
  { intros [e | u] w1.
    - destruct (issubclass (exc_cls e) Exception) eqn:E; [| discriminate].
      intros [= <- _]. exact E.
    - intros [= <- _]. reflexivity. }
  repeat apply conj.
  - intros x [= <- _]. reflexivity.
  - exact Hinit.
  - intros v. rewrite run_Ok_map.
    destruct (run (call func [v] []) w) as [y w1]. apply Hcapture.
  - intros v [= <- _]. reflexivity.
  - intros e. apply Hinit.
  - intros e. rewrite run_Err_map_err.
    destruct (run (call func [e] []) w) as [[y | u] w1].
    + apply (Hcapture (inl y)).
    + destruct (isinstance_Exception u) eqn:E; intros [= <- _];
        [exact E | reflexivity].
  - intros e. apply Hinit.
  - intros args kwargs. rewrite run_resultify.
    destruct (run (call func args kwargs) w) as [y w1]. apply Hcapture.
  - intros v. unfold Ok_map_async. rewrite drive_capture.
    destruct (drive others n (await_call afunc [v] []) w) as [[y w1] m1].
    intros H. apply (Hcapture y w1).
    destruct y as [e | u]; [destruct (issubclass (exc_cls e) Exception) |];
      injection H as <- <- _; reflexivity.
  - intros e. unfold Err_map_async. rewrite drive_blocking.
    intros [= H _]. apply (Hinit e), H.
  - intros e. unfold Err_and_then_async. rewrite drive_blocking.
    intros [= H _]. apply (Hinit e), H.
  - intros args kwargs. rewrite drive_async_resultify.
    destruct (drive others n (await_call afunc args kwargs) w) as [[y w1] m1].
    intros H. apply (Hcapture y w1).
    destruct y as [e | u]; [destruct (issubclass (exc_cls e) Exception) |];
      injection H as <- <- _; reflexivity.
Qed.

Lemma returned_results_are_well_formed_witness :
  well_formed (Err (PyExc (mkExc 0 TypeError
                             "Err expects an Exception instance."))) = true.
Proof.
  apply (proj1 (proj2 (proj2 (proj2 (proj2 (proj2
           (returned_results_are_well_formed to_message async_inc idle_loop 0
              empty_world
              (Err (PyExc (mkExc 0 TypeError
                             "Err expects an Exception instance.")))
              (mkWorld 1 [] [("<lambda>", [PyExc bad])]) 0))))))
           (PyExc bad)).
  reflexivity.
Defined.

(** [unwrap] on what the capturing body built undoes the capture. *)
Lemma run_unwrap_captured (y : exc + value) (w1 : world) :
  match
    match y with
    | inr u => (inr (Ok u), w1)
    | inl e => if issubclass (exc_cls e) Exception
               then (inr (Err (PyExc e)), w1) else (inl e, w1)
    end
  with
  | (inr r, w2) => run (dot_unwrap r) w2
  | (inl e, w2) => (inl e, w2)
  end = (y, w1).
Proof.
  destruct y as [e | u]; [| reflexivity].
  destruct (issubclass (exc_cls e) Exception); reflexivity.
Qed.

(** X4: capturing and then unwrapping gives back the plain call:
    [Ok(v).map(f).unwrap()] and [resultify(f)(args).unwrap()] return what
    [f] returns, raise what [f] raises and leave the world [f] leaves;
    [Ok(v).and_then(f).unwrap()] does what [f(v).unwrap()] does. *)
Theorem unwrap_undoes_capture func w :
  (forall v, run (r <- Ok_map v func ;; dot_unwrap r) w =
             run (call func [v] []) w) /\
  (forall args kwargs,
      run (r <- body (resultify func) args kwargs ;; dot_unwrap r) w =
      run (call func args kwargs) w) /\
  (forall v, run (r <- Ok_and_then v func ;; dot_unwrap r) w =
             run (r <- call func [v] [] ;; dot_unwrap r) w).
Proof.
  split; [| split].
  - intros v. rewrite run_bind, run_Ok_map.
    destruct (run (call func [v] []) w) as [y w1]. apply run_unwrap_captured.
  - intros args kwargs. rewrite run_bind, run_resultify.
    destruct (run (call func args kwargs) w) as [y w1].
    apply run_unwrap_captured.
  - intros v. rewrite !run_bind, run_Ok_and_then.
    destruct (run (call func [v] []) w) as [[e | u] w1]; [| reflexivity].
    destruct (issubclass (exc_cls e) Exception); reflexivity.
Qed.

(** X5: the same under suspension: awaiting [Ok(v).map_async(f)] or the
    wrapper of [async_resultify] and unwrapping the result is awaiting [f]
    itself, with the same suspensions. *)
Theorem unwrap_undoes_capture_async others n afunc w :
  (forall v,
      drive others n (r <- Ok_map_async v afunc ;; blocking (dot_unwrap r)) w =
      drive others n (await_call afunc [v] []) w) /\
  (forall args kwargs,
      drive others n
        (r <- body (async_resultify afunc) args kwargs ;;
         blocking (dot_unwrap r)) w =
      drive others n (await_call afunc args kwargs) w).
Proof.
  assert (H : forall (y : exc + value) (w1 : world) (m : nat),
             match
               match y with
               | inr u => (inr (Ok u), w1, m)
               | inl e => if issubclass (exc_cls e) Exception
                          then (inr (Err (PyExc e)), w1, m) else (inl e, w1, m)
               end
             with
             | (inr r, w2, m2) => drive others m2 (blocking (dot_unwrap r)) w2
             | (inl e, w2, m2) => (inl e, w2, m2)
             end = (y, w1, m)).
  { intros [e | u] w1 m; [| reflexivity].
    destruct (issubclass (exc_cls e) Exception); reflexivity. }
  split.
  - intros v. unfold Ok_map_async. rewrite drive_bind, drive_capture.
    destruct (drive others n (await_call afunc [v] []) w) as [[y w1] m].
    apply H.
  - intros args kwargs. rewrite drive_bind, drive_async_resultify.
    destruct (drive others n (await_call afunc args kwargs) w) as [[y w1] m].
    apply H.
Qed.

(** X6: [Ok(v).map(f).unwrap_or(d)] is a call of [f] with a default: what
    [f(v)] returns when it returns, [d] when it raises an [Exception]
    instance; only what does not derive from [Exception] is raised. *)
Theorem map_then_unwrap_or_defaults v func d w :
  run (r <- Ok_map v func ;; dot_unwrap_or r d) w =
  match run (call func [v] []) w with
  | (inr u, w') => (inr u, w')
  | (inl e, w') =>
      if issubclass (exc_cls e) Exception then (inr d, w') else (inl e, w')
  end.
Proof.
  rewrite run_bind, run_Ok_map.
  destruct (run (call func [v] []) w) as [[e | u] w']; [| reflexivity].
  destruct (issubclass (exc_cls e) Exception); reflexivity.
Qed.

(** A call is the log entry followed by the body. *)
Lemma run_call func args kwargs w :
  run (call func args kwargs) w =
  run (body func args kwargs)
    (mkWorld (next_id w) (globals w) (calls w ++ [(__name__ func, args)])).
Proof. unfold call. rewrite run_bind. reflexivity. Qed.

(** X7: in a method chain, a failure skips every later [map] and
    [and_then] and a success skips every [map_err]: the receiver comes
    out as it is and the world is unchanged, so none of the skipped
    functions is called; when the function of a first [map] raises, the
    [Err] it becomes passes the rest of such a chain untouched. *)
Theorem chain_skips links w :
  (forall e, isinstance_Exception e = true ->
             forallb on_success links = true ->
             run (chain links (Err e)) w = (inr (Err e), w)) /\
  (forall v, forallb (fun l => negb (on_success l)) links = true ->
             run (chain links (Ok v)) w = (inr (Ok v), w)) /\
  (forall v func x w',
      run (call func [v] []) w = (inl x, w') ->
      issubclass (exc_cls x) Exception = true ->
      forallb on_success links = true ->
      run (chain (dot_map_link func :: links) (Ok v)) w =
        (inr (Err (PyExc x)), w')).
Proof.
  assert (Herr : forall w0 e, isinstance_Exception e = true ->
                 forallb on_success links = true ->
                 run (chain links (Err e)) w0 = (inr (Err e), w0)).
  { intros w0 e He. induction links as [| l rest IH]; intros Hl.
    - reflexivity.
    - simpl in Hl. apply andb_prop in Hl as [Hl Hrest].
      cbn [chain]. rewrite run_bind.
      destruct l; try discriminate Hl; cbn [follow dot_map dot_and_then];
        unfold Err_map, Err_and_then;
        rewrite (run_Err_init_Exception _ _ He); apply IH, Hrest. }
  split; [| split].
  - apply Herr.
  - clear Herr. intros v. induction links as [| l rest IH]; intros Hl.
    + reflexivity.
    + simpl in Hl. apply andb_prop in Hl as [Hl Hrest].
      cbn [chain]. rewrite run_bind.
      destruct l; simpl in Hl; try discriminate Hl. cbn [follow dot_map_err].
      unfold Ok_map_err. rewrite run_Ok_init. apply IH, Hrest.
  - intros v func x w' H Hx Hl.
    cbn [chain follow dot_map]. rewrite run_bind, run_Ok_map, H, Hx.
    apply Herr; [exact Hx | exact Hl].
Qed.

Lemma chain_skips_witness :
  run (chain [dot_map_link counting; dot_and_then_link times_ten;
              dot_map_link inc] (Err (PyExc bad))) empty_world =
    (inr (Err (PyExc bad)), empty_world) /\
  run (chain [dot_map_err_link counting; dot_map_err_link to_message]
         (Ok (PyInt 2))) empty_world =
    (inr (Ok (PyInt 2)), empty_world) /\
  run (chain [dot_map_link fail; dot_map_link counting;
              dot_and_then_link times_ten] (Ok (PyInt 2))) empty_world =
    (inr (Err (PyExc (mkExc 0 ValueError "boom"))),
     mkWorld 1 [] [("fail", [PyInt 2])]).
Proof.
  split; [| split].
  - apply (proj1 (chain_skips _ empty_world)); reflexivity.
  - apply (proj1 (proj2 (chain_skips _ empty_world))); reflexivity.
  - apply (proj2 (proj2 (chain_skips _ empty_world))); reflexivity.
Defined.

(** X8: identity laws: on a well-formed result [r], [r.map(lambda x: x)],
    [r.map_err(lambda x: x)] and [r.and_then(Ok)] all return [r]. *)
Theorem identity_laws r w :
  well_formed r = true ->
  returned (dot_map r identity) w = inr r /\
  returned (dot_map_err r identity) w = inr r /\
  returned (dot_and_then r Ok_class) w = inr r.
Proof.
  unfold returned. intros Hr. destruct r; try discriminate Hr.
  - repeat split.
  - cbn [well_formed] in Hr.
    cbn [dot_map dot_map_err dot_and_then]. unfold Err_map, Err_and_then.
    rewrite run_Err_map_err, run_call, (run_Err_init_Exception _ _ Hr).
    cbn [body identity plain]. rewrite run_ret, Hr. repeat split.
Qed.

Lemma identity_laws_witness :
  returned (dot_map (Err (PyExc bad)) identity) empty_world =
    inr (Err (PyExc bad)) /\
  returned (dot_map_err (Err (PyExc bad)) identity) empty_world =
    inr (Err (PyExc bad)) /\
  returned (dot_and_then (Err (PyExc bad)) Ok_class) empty_world =
    inr (Err (PyExc bad)).
Proof.
  apply (identity_laws (Err (PyExc bad)) empty_world). reflexivity.
Defined.

(** X9: [==] on results is an equivalence that does not depend on the side
    a result stands on: it is reflexive, symmetric and transitive, nested
    results included, and so [!=] is symmetric too. *)
Theorem equality_is_an_equivalence a b c :
  py_eq a a = true /\
  py_eq a b = py_eq b a /\
  (py_eq a b = true -> py_eq b c = true -> py_eq a c = true) /\
  Result___ne__ a b = Result___ne__ b a.
Proof.
  assert (Hsym : forall x y, py_eq x y = py_eq y x).
  { induction x; destruct y; simpl; auto.
    - apply Z.eqb_sym.
    - apply String.eqb_sym.
    - apply Nat.eqb_sym. }
  split; [apply py_eq_refl | split; [apply Hsym | split]].
  - revert b c. induction a; destruct b; simpl; try discriminate;
      destruct c; simpl; try discriminate; auto.
    + intros H1 H2. apply Z.eqb_eq in H1, H2. apply Z.eqb_eq. congruence.
    + intros H1 H2. apply String.eqb_eq in H1, H2. apply String.eqb_eq.
      congruence.
    + intros H1 H2. apply Nat.eqb_eq in H1, H2. apply Nat.eqb_eq. congruence.
    + apply IHa.
    + apply IHa.
  - unfold Result___ne__. rewrite Hsym. reflexivity.
Qed.

Lemma equality_is_an_equivalence_witness :
  py_eq (Ok (Err (PyExc bad))) (Ok (Err (PyExc bad))) = true.
Proof.
  apply (proj1 (proj2 (proj2 (equality_is_an_equivalence
           (Ok (Err (PyExc bad))) (Ok (Err (PyExc bad)))
           (Ok (Err (PyExc bad))))))); reflexivity.
Defined.



Lemma append_paren_inj (a b : string) : a ++ ")" = b ++ ")" -> a = b.
Proof.
  revert b. induction a as [| x a IH]; intros [| y b]; simpl; intros H.
  - reflexivity.
  - injection H as _ H. destruct b; discriminate H.
  - injection H as _ H. destruct a; discriminate H.
  - injection H as -> H. f_equal. apply IH, H.
Qed.

(** X11: [repr] tells the variants apart and loses nothing of the
    payload's [repr]: an [Ok] and an [Err] never print alike, and two
    results of one variant print alike only when their payloads do. *)
Theorem repr_is_faithful (repr : value -> string) x y :
  Ok___repr__ repr x <> Err___repr__ repr y /\
  (Ok___repr__ repr x = Ok___repr__ repr y -> repr x = repr y) /\
  (Err___repr__ repr x = Err___repr__ repr y -> repr x = repr y).
Proof.
  unfold Ok___repr__, Err___repr__. split; [| split].
  - simpl. discriminate.
  - simpl. intros [= H]. apply append_paren_inj, H.
  - simpl. intros [= H]. apply append_paren_inj, H.
Qed.

Lemma repr_is_faithful_witness :
  (fun v => match v with PyNone => "None" | _ => "..." end) PyNone =
  (fun v => match v with PyNone => "None" | _ => "..." end) PyNone.
Proof.
  apply (proj1 (proj2 (repr_is_faithful
           (fun v => match v with PyNone => "None" | _ => "..." end)
           PyNone PyNone))).
  reflexivity.
Defined.

(** X12: a capturing combinator has the effects of one call of the
    function and no other: the world after [Ok.map], [Ok.and_then] or the
    wrapper of [resultify] is the world that call leaves; [Err.map_err]
    adds at most the allocation of the [TypeError] it captures. *)
Theorem effects_are_those_of_one_call func w :
  (forall v, snd (run (Ok_map v func) w) = snd (run (call func [v] []) w)) /\
  (forall v, snd (run (Ok_and_then v func) w) =
             snd (run (call func [v] []) w)) /\
  (forall args kwargs,
      snd (run (body (resultify func) args kwargs) w) =
      snd (run (call func args kwargs) w)) /\
  (forall e,
      let after := snd (run (Err_map_err e func) w) in
      let called := snd (run (call func [e] []) w) in
      globals after = globals called /\
      calls after = calls called /\
      (next_id after = next_id called \/
       next_id after = S (next_id called) /\
       exists u, fst (run (call func [e] []) w) = inr u /\
                 isinstance_Exception u = false)).
Proof.
  repeat apply conj.
  - intros v. rewrite run_Ok_map.
    destruct (run (call func [v] []) w) as [[e | u] w']; [| reflexivity].
    destruct (issubclass (exc_cls e) Exception); reflexivity.
  - intros v. rewrite run_Ok_and_then.
    destruct (run (call func [v] []) w) as [[e | u] w']; [| reflexivity].
    destruct (issubclass (exc_cls e) Exception); reflexivity.
  - intros args kwargs. rewrite run_resultify.
    destruct (run (call func args kwargs) w) as [[e | u] w']; [| reflexivity].
    destruct (issubclass (exc_cls e) Exception); reflexivity.
  - intros e. cbv zeta. rewrite run_Err_map_err.
    destruct (run (call func [e] []) w) as [[x | u] w'].
    + destruct (issubclass (exc_cls x) Exception); simpl; auto.
    + destruct (isinstance_Exception u) eqn:E; simpl; [auto |].
      repeat split. right. split; [reflexivity |]. exists u. auto.
Qed.

(** X13: the two decorators agree: when awaiting the coroutine function
    gives the caller what the blocking function gives, awaiting the
    wrapper of [async_resultify] gives what the wrapper of [resultify]
    returns. *)
Theorem decorators_agree others n fn afn args kwargs w :
  awaited others n (await_call afn args kwargs) w =
    returned (call fn args kwargs) w ->
  awaited others n (body (async_resultify afn) args kwargs) w =
    returned (body (resultify fn) args kwargs) w.
Proof.
  unfold awaited, returned. rewrite drive_async_resultify, run_resultify.
  destruct (drive others n (await_call afn args kwargs) w) as [[y w1] m].
  destruct (run (call fn args kwargs) w) as [y' w2]. simpl. intros <-.
  destruct y as [e | u]; [destruct (issubclass (exc_cls e) Exception) |];
    reflexivity.
Qed.

Lemma decorators_agree_witness :
  awaited busy_loop 0 (body (async_resultify async_maybe_raise) [PyInt 1] [])
    empty_world =
  returned (body (resultify maybe_raise) [PyInt 1] []) empty_world.
Proof.
  apply (decorators_agree busy_loop 0 maybe_raise async_maybe_raise
           [PyInt 1] [] empty_world).
  reflexivity.
Defined.

(** One link that is not [and_then] keeps a well-formed receiver inside
    the boundary. *)
Lemma follow_stays_inside l r w :
  well_formed r = true ->
  (forall f, l <> dot_and_then_link f) ->
  match run (follow l r) w with
  | (inr r', _) => well_formed r' = true
  | (inl x, _) => issubclass (exc_cls x) Exception = false
  end.
Proof.
  intros Hr Hl. destruct r; try discriminate Hr; cbn [well_formed] in Hr.
  - destruct l as [f | f | f]; cbn [follow dot_map dot_map_err].
    + rewrite run_Ok_map.
      destruct (run (call f [r] []) w) as [[e | u] w']; [| reflexivity].
      destruct (issubclass (exc_cls e) Exception) eqn:E; assumption.
    + destruct (Hl f eq_refl).
    + reflexivity.
  - destruct l as [f | f | f]; cbn [follow dot_map dot_map_err].
    + unfold Err_map. rewrite (run_Err_init_Exception _ _ Hr). exact Hr.
    + destruct (Hl f eq_refl).
    + rewrite run_Err_map_err.
      destruct (run (call f [r] []) w) as [[e | u] w'].
      * destruct (issubclass (exc_cls e) Exception) eqn:E; assumption.
      * destruct (isinstance_Exception u) eqn:E; [exact E | reflexivity].
Qed.

(** X14: a chain of [map] and [map_err] from a well-formed result stays
    inside the boundary whatever the functions do: it ends in a
    well-formed result, or raises something that does not derive from
    [Exception]. *)
Theorem chain_stays_inside links :
  (forall l f, In l links -> l <> dot_and_then_link f) ->
  forall r w,
    well_formed r = true ->
    match run (chain links r) w with
    | (inr r', _) => well_formed r' = true
    | (inl x, _) => issubclass (exc_cls x) Exception = false
    end.
Proof.
  induction links as [| l rest IH]; intros Hl r w Hr.
  - exact Hr.
  - cbn [chain]. rewrite run_bind.
    pose proof (@follow_stays_inside l r w Hr
                  (fun f => Hl l f (or_introl eq_refl))) as H.
    destruct (run (follow l r) w) as [[x | r'] w'].
    + exact H.
    + apply IH; [| exact H].
      intros l' f Hin. apply Hl. right. exact Hin.
Qed.

Lemma chain_stays_inside_witness :
  match run (chain [dot_map_link inc; dot_map_err_link to_message;
                    dot_map_link fail; dot_map_err_link to_message]
               (Ok (PyInt 1))) empty_world with
  | (inr r', _) => well_formed r' = true
  | (inl x, _) => issubclass (exc_cls x) Exception = false
  end.
Proof.
  apply (@chain_stays_inside
           [dot_map_link inc; dot_map_err_link to_message;
            dot_map_link fail; dot_map_err_link to_message]).
  - intros l f [<- | [<- | [<- | [<- | []]]]]; discriminate.
  - reflexivity.
Defined.
